(** * mnefun, [examples/plot_simulation.py]: the head-position comparison plot

    The script loads three head-position logs and overlays them, one subplot
    per spatial axis.  This development embeds the plotting part of the script
    (source lines 96-115) as a program in a small state-and-exception monad
    over the pyplot state machine, and proves the properties the
    specification lists for it.

    Numbers are IEEE-754 binary64 values ([PrimFloat.float]), as numpy's
    float64 arrays hold them. *)

From Stdlib Require Import List String Ascii ZArith Bool Arith Floats Lia.
Import ListNotations.
Open Scope string_scope.
Open Scope list_scope.
Open Scope nat_scope.

(* ================================================================== *)
(** * Python built-ins *)

Module Py.

(** The exceptions that can travel through the plotting loop.  [BadRef] has
    no Python counterpart: an object reference never dangles, a (figure,
    axes) index pair of the model could; the theorems show it never does. *)
Inductive exc : Type :=
| AttributeError (obj attr : string)
| ValueError (msg : string)
| IndexError (msg : string)
| TypeError (msg : string)
| BadRef.

(** Iterating a [str] yields its one-character substrings. *)
Fixpoint chars (s : string) : list string :=
  match s with
  | EmptyString => []
  | String c s' => String c EmptyString :: chars s'
  end.

Fixpoint enumerate_from {A : Type} (start : nat) (l : list A) : list (nat * A) :=
  match l with
  | [] => []
  | x :: l' => (start, x) :: enumerate_from (S start) l'
  end.

Definition enumerate {A : Type} (l : list A) : list (nat * A) :=
  enumerate_from 0 l.

(** [zip] of five iterables: stops at the shortest. *)
Fixpoint zip5 {A B C D E : Type}
         (la : list A) (lb : list B) (lc : list C) (ld : list D) (le : list E)
  : list (A * B * C * D * E) :=
  match la, lb, lc, ld, le with
  | a :: la', b :: lb', c :: lc', d :: ld', e :: le' =>
      (a, b, c, d, e) :: zip5 la' lb' lc' ld' le'
  | _, _, _, _, _ => []
  end.

(** [l[i]] on a list. *)
Definition getitem {A : Type} (l : list A) (i : nat) : exc + A :=
  match nth_error l i with
  | Some x => inr x
  | None => inl (IndexError "list index out of range")
  end.

(** In-place replacement of the element at index [i]; nothing out of range. *)
Fixpoint set_nth {A : Type} (i : nat) (x : A) (l : list A) : list A :=
  match l, i with
  | [], _ => []
  | _ :: l', O => x :: l'
  | y :: l', S i' => y :: set_nth i' x l'
  end.

End Py.

(* ================================================================== *)
(** * numpy arrays as the script uses them *)

Module Np.

(** A row of an (N, 3) array. *)
Definition vec3 : Type := (float * float * float)%type.
(** A 3 x 3 block of an (N, 3, 3) array. *)
Definition mat3 : Type := (vec3 * vec3 * vec3)%type.

Definition component (ai : nat) (v : vec3) : float :=
  let '(x, y, z) := v in
  match ai with
  | 0 => x
  | 1 => y
  | _ => z
  end.

(** [data[:, ai]] on an array of shape (N, 3). *)
Definition column (data : list vec3) (ai : nat) : Py.exc + list float :=
  if ai <? 3 then inr (map (component ai) data)
  else inl (Py.IndexError "index is out of bounds for axis 1 with size 3").

(** [k * a] for a scalar [k] and a float64 array [a]. *)
Definition scalar_mul (k : float) (a : list float) : list float :=
  map (PrimFloat.mul k) a.

End Np.

(* ================================================================== *)
(** * matplotlib objects *)

Module Mpl.

(** The data and styling of one line of an axes. *)
Record Line2D : Type := mkLine2D {
  l_xdata : list float;
  l_ydata : list float;
  l_color : string;
  l_marker : string;
  l_markersize : Z;
  l_where : string;
  l_label : string
}.

(** One subplot.  [a_geometry] is the (rows, columns, index) triple given to
    [subplot]; [a_legend] holds the entries of the legend of the axes, if a
    [legend] call made one; [a_axes] is the attribute a [set_axes] setter
    writes, where the class offers one. *)
Record Axes : Type := mkAxes {
  a_geometry : nat * nat * nat;
  a_lines : list Line2D;
  a_ylabel : string;
  a_xlabel : string;
  a_legend : option (list Line2D);
  a_axes : option string
}.

(** A figure: its axes in creation order and the current one. *)
Record Figure : Type := mkFigure {
  f_axes : list Axes;
  f_current : option nat
}.

(** The state of the pyplot module: all figures in creation order and the
    current one. *)
Record Pyplot : Type := mkPyplot {
  p_figs : list Figure;
  p_current : option nat
}.

(** Modelled from the spec: the method table of the plotting-axis class is
    matplotlib's and not part of the repository.  The spec's design notes
    say that [set_axes] "does not exist on typical plotting-axis objects";
    [has_set_axes] records whether the class in use offers it. *)
Record AxesClass : Type := mkAxesClass {
  has_set_axes : bool
}.

(** The axes class as the spec describes it. *)
Definition spec_axes_class : AxesClass := {| has_set_axes := false |}.

(** A class that offers a [set_axes] setter. *)
Definition setter_axes_class : AxesClass := {| has_set_axes := true |}.

Definition new_axes (g : nat * nat * nat) : Axes :=
  {| a_geometry := g; a_lines := []; a_ylabel := ""; a_xlabel := "";
     a_legend := None; a_axes := None |}.

Definition new_figure : Figure := {| f_axes := []; f_current := None |}.

Definition geometry_eqb (g h : nat * nat * nat) : bool :=
  let '(a, b, c) := g in
  let '(a', b', c') := h in
  (a =? a') && (b =? b') && (c =? c').

(** Index of the first axes of [l] with geometry [g], counting from [k]. *)
Fixpoint find_geometry (g : nat * nat * nat) (l : list Axes) (k : nat) : option nat :=
  match l with
  | [] => None
  | ax :: l' => if geometry_eqb (a_geometry ax) g then Some k
                else find_geometry g l' (S k)
  end.

(** ** Methods of an axes *)

(** [ax.step(x, y, color=, marker=, markersize=, where=, label=)]: one new
    line, appended to the axes and returned in a one-element list.
    Modelled from the spec: a mismatch of the shapes of [x] and [y] is a
    failure raised by the plotting call. *)
Definition Axes_step (x y : list float) (color marker : string) (markersize : Z)
           (where_ label : string) (ax : Axes) : (Py.exc + list Line2D) * Axes :=
  if List.length x =? List.length y then
    let line := {| l_xdata := x; l_ydata := y; l_color := color;
                   l_marker := marker; l_markersize := markersize;
                   l_where := where_; l_label := label |} in
    (inr [line],
     {| a_geometry := a_geometry ax; a_lines := a_lines ax ++ [line];
        a_ylabel := a_ylabel ax; a_xlabel := a_xlabel ax;
        a_legend := a_legend ax; a_axes := a_axes ax |})
  else (inl (Py.ValueError "x and y must have same first dimension"), ax).

Definition Axes_set_ylabel (s : string) (ax : Axes) : (Py.exc + unit) * Axes :=
  (inr tt,
   {| a_geometry := a_geometry ax; a_lines := a_lines ax;
      a_ylabel := s; a_xlabel := a_xlabel ax;
      a_legend := a_legend ax; a_axes := a_axes ax |}).

Definition Axes_set_xlabel (s : string) (ax : Axes) : (Py.exc + unit) * Axes :=
  (inr tt,
   {| a_geometry := a_geometry ax; a_lines := a_lines ax;
      a_ylabel := a_ylabel ax; a_xlabel := s;
      a_legend := a_legend ax; a_axes := a_axes ax |}).

(** The message of the [TypeError] of [legend]. *)
Definition legend_artist_message : string :=
  "A single argument passed to legend() must be a list of labels, but found an Artist in there.".

(** [ax.legend(arg)] with one positional argument.  matplotlib reads a single
    positional argument as the list of labels and refuses a list that holds
    an artist: a list of lines raises [TypeError] and no legend is made.  The
    empty list is accepted and gives a legend without entries. *)
Definition Axes_legend (arg : list Line2D) (ax : Axes) : (Py.exc + unit) * Axes :=
  match arg with
  | [] =>
      (inr tt,
       {| a_geometry := a_geometry ax; a_lines := a_lines ax;
          a_ylabel := a_ylabel ax; a_xlabel := a_xlabel ax;
          a_legend := Some []; a_axes := a_axes ax |})
  | _ :: _ => (inl (Py.TypeError legend_artist_message), ax)
  end.

(** [ax.set_axes(arg)]: the attribute lookup fails on a class without the
    method; on a class with it the call is a setter of [a_axes]. *)
Definition Axes_set_axes (cls : AxesClass) (arg : string) (ax : Axes)
  : (Py.exc + unit) * Axes :=
  if has_set_axes cls then
    (inr tt,
     {| a_geometry := a_geometry ax; a_lines := a_lines ax;
        a_ylabel := a_ylabel ax; a_xlabel := a_xlabel ax;
        a_legend := a_legend ax; a_axes := Some arg |})
  else (inl (Py.AttributeError "Axes" "set_axes"), ax).

(** ** Methods of a figure *)

(** Run an axes method on the axes at index [k] of a figure. *)
Definition on_axes {A : Type} (k : nat) (m : Axes -> (Py.exc + A) * Axes)
           (fig : Figure) : (Py.exc + A) * Figure :=
  match nth_error (f_axes fig) k with
  | Some ax =>
      let '(r, ax') := m ax in
      (r, {| f_axes := Py.set_nth k ax' (f_axes fig); f_current := f_current fig |})
  | None => (inl Py.BadRef, fig)
  end.

(** [fig.add_subplot(nrows, ncols, index)]: the axes of that grid cell is
    made current and returned; it is created when the figure has none.
    Cells of one grid do not overlap, so no axes is ever removed here. *)
Definition Figure_add_subplot (nrows ncols index : nat) (fig : Figure)
  : (Py.exc + nat) * Figure :=
  if (1 <=? index) && (index <=? nrows * ncols) then
    match find_geometry (nrows, ncols, index) (f_axes fig) 0 with
    | Some k => (inr k, {| f_axes := f_axes fig; f_current := Some k |})
    | None =>
        let k := List.length (f_axes fig) in
        (inr k, {| f_axes := f_axes fig ++ [new_axes (nrows, ncols, index)];
                   f_current := Some k |})
    end
  else (inl (Py.ValueError "num must be 1 <= num <= nrows * ncols"), fig).

(** [fig.gca()]: the current axes, created as subplot (1, 1, 1) if none. *)
Definition Figure_gca (fig : Figure) : (Py.exc + nat) * Figure :=
  match f_current fig with
  | Some k => (inr k, fig)
  | None => Figure_add_subplot 1 1 1 fig
  end.

(** ** The path of a step plot *)

(** Modelled from the spec: with [where] = "post" the value of a sample is
    held from its timestamp to the timestamp of the next sample, so the path
    goes through (x0, y0), (x1, y0), (x1, y1), (x2, y1), ... *)
Fixpoint poststep (xs ys : list float) : list (float * float) :=
  match xs, ys with
  | x :: xs', y :: ys' =>
      (x, y) :: match xs' with
                | x' :: _ => (x', y) :: poststep xs' ys'
                | [] => []
                end
  | _, _ => []
  end.

(** The path drawn for a line; only the "post" convention is described. *)
Definition step_path (l : Line2D) : option (list (float * float)) :=
  if String.eqb (l_where l) "post" then Some (poststep (l_xdata l) (l_ydata l))
  else None.

End Mpl.

(* ================================================================== *)
(** * The interpreter state and the monad of the script *)

(** The module-level names bound by the three [get_chpi_positions] calls
    (source lines 89-94): per log, the translations (N, 3), the rotations
    (N, 3, 3) and the timestamps (N). *)
Record Globals : Type := mkGlobals {
  trans_orig : list Np.vec3;
  rot_orig : list Np.mat3;
  t_orig : list float;
  trans_move : list Np.vec3;
  rot_move : list Np.mat3;
  t_move : list float;
  trans_stat : list Np.vec3;
  rot_stat : list Np.mat3;
  t_stat : list float
}.

(** Everything a statement of the script can read or change: the files on
    disk (path and contents), the script's variables and the pyplot state. *)
Record World : Type := mkWorld {
  w_files : list (string * string);
  w_globals : Globals;
  w_plt : Mpl.Pyplot
}.

(** A statement either returns a value or raises; the state reached is kept
    in both cases. *)
Definition M (A : Type) : Type := World -> (Py.exc + A) * World.

Definition ret {A : Type} (a : A) : M A := fun w => (inr a, w).

Definition bind {A B : Type} (m : M A) (k : A -> M B) : M B :=
  fun w =>
    match m w with
    | (inr a, w') => k a w'
    | (inl e, w') => (inl e, w')
    end.

(** A pure expression that may raise. *)
Definition lift {A : Type} (r : Py.exc + A) : M A := fun w => (r, w).

Definition globals : M Globals := fun w => (inr (w_globals w), w).

Declare Scope py_scope.
Delimit Scope py_scope with py.
Notation "x <- m ;; k" := (bind m (fun x => k))
  (at level 100, m at next level, right associativity) : py_scope.
Notation "m ;;; k" := (bind m (fun _ => k))
  (at level 100, right associativity) : py_scope.
Open Scope py_scope.

(** A [for] loop over a list, threading the local variables [acc] that its
    body rebinds; an exception in the body ends the loop. *)
Fixpoint for_in {X Acc : Type} (l : list X) (acc : Acc) (body : Acc -> X -> M Acc)
  : M Acc :=
  match l with
  | [] => ret acc
  | x :: l' => acc' <- body acc x ;; for_in l' acc' body
  end.

(* ================================================================== *)
(** * The pyplot interface *)

Module Plt.

(** A reference to an axes object: the figure that holds it and its place
    there. *)
Record AxesRef : Type := mkAxesRef { ref_fig : nat; ref_axes : nat }.

Definition set_plt (w : World) (p : Mpl.Pyplot) : World :=
  {| w_files := w_files w; w_globals := w_globals w; w_plt := p |}.

(** [plt.figure()]: a new, empty figure, made current. *)
Definition figure : M nat :=
  fun w =>
    let n := List.length (Mpl.p_figs (w_plt w)) in
    (inr n,
     set_plt w {| Mpl.p_figs := Mpl.p_figs (w_plt w) ++ [Mpl.new_figure];
                  Mpl.p_current := Some n |}).

(** Run a figure method on figure number [fi]. *)
Definition on_figure {A : Type} (fi : nat)
           (m : Mpl.Figure -> (Py.exc + A) * Mpl.Figure) : M A :=
  fun w =>
    match nth_error (Mpl.p_figs (w_plt w)) fi with
    | Some fig =>
        let '(r, fig') := m fig in
        (r, set_plt w {| Mpl.p_figs := Py.set_nth fi fig' (Mpl.p_figs (w_plt w));
                         Mpl.p_current := Mpl.p_current (w_plt w) |})
    | None => (inl Py.BadRef, w)
    end.

(** [plt.gcf()]: the current figure, created if there is none. *)
Definition gcf : M nat :=
  fun w =>
    match Mpl.p_current (w_plt w) with
    | Some n => (inr n, w)
    | None => figure w
    end.

(** [plt.subplot(nrows, ncols, index)]. *)
Definition subplot (nrows ncols index : nat) : M AxesRef :=
  fi <- gcf ;;
  k <- on_figure fi (Mpl.Figure_add_subplot nrows ncols index) ;;
  ret {| ref_fig := fi; ref_axes := k |}.

(** [plt.legend(arg)]: [legend], with [arg] as its one positional argument,
    on the current axes of the current figure. *)
Definition legend (arg : list Mpl.Line2D) : M unit :=
  fi <- gcf ;;
  k <- on_figure fi Mpl.Figure_gca ;;
  on_figure fi (Mpl.on_axes k (Mpl.Axes_legend arg)).

(** A method call [ax.m(...)] through a reference. *)
Definition call {A : Type} (ax : AxesRef)
           (m : Mpl.Axes -> (Py.exc + A) * Mpl.Axes) : M A :=
  on_figure (ref_fig ax) (Mpl.on_axes (ref_axes ax) m).

End Plt.

(* ================================================================== *)
(** * The script, source lines 96-115 *)

(** The plotting part of the script, statement by statement.  The literal
    [1000] is a Python int; numpy multiplies the float64 column by its exact
    binary64 value. *)
Definition plot_simulation (cls : Mpl.AxesClass) : M unit :=
  let axes := "XYZ" in
  Plt.figure ;;;
  g <- globals ;;
  let ts := [t_stat g; t_orig g; t_move g] in
  let transs := [trans_stat g; trans_orig g; trans_move g] in
  let labels := ["stationary"; "original"; "simulated"] in
  let sizes := [5%Z; 10%Z; 5%Z] in
  let colors := "ykr" in
  for_in (Py.enumerate (Py.chars axes)) tt (fun _ '(ai, axis) =>
    ax <- Plt.subplot 3 1 (ai + 1) ;;
    lines <- for_in (Py.zip5 ts transs sizes (Py.chars colors) labels) []
               (fun lines '(t, data, size, color, label) =>
                  col <- lift (Np.column data ai) ;;
                  r <- Plt.call ax (Mpl.Axes_step t (Np.scalar_mul 1000%float col)
                                                  color "o" size "post" label) ;;
                  line <- lift (Py.getitem r 0) ;;
                  ret (lines ++ [line])) ;;
    Plt.call ax (Mpl.Axes_set_ylabel axis) ;;;
    (if ai =? 1 then Plt.legend lines else ret tt) ;;;
    (if ai =? 2 then Plt.call ax (Mpl.Axes_set_xlabel "Time (sec)") else ret tt) ;;;
    Plt.call ax (Mpl.Axes_set_axes cls "tight")).

(** The concrete scenario of the specification.  The two hexadecimal
    literals are the binary64 values of 1e-3 and 2e-3. *)
Module Scenario.
Open Scope float_scope.
Definition g : Globals :=
  {| trans_stat := [(0, 0, 0); (0, 0, 0); (0, 0, 0)];
     rot_stat := [];
     t_stat := [0; 1; 2];
     trans_orig := [(0, 0, 0); (0x1.0624dd2f1a9fcp-10, 0, 0); (0, 0, 0);
                    (0x1.0624dd2f1a9fcp-10, 0, 0); (0, 0, 0)];
     rot_orig := [];
     t_orig := [0; 0.5; 1; 1.5; 2];
     trans_move := [(0, 0, 0); (0x1.0624dd2f1a9fcp-9, 0, 0);
                    (0x1.0624dd2f1a9fcp-9, 0, 0)];
     rot_move := [];
     t_move := [0; 1; 2] |}.
Definition w : World :=
  {| w_files := []; w_globals := g;
     w_plt := {| Mpl.p_figs := []; Mpl.p_current := None |} |}.

(** The same positions with other rotations, a log file on disk and a figure
    made earlier. *)
Definition identity : Np.mat3 := ((1, 0, 0), (0, 1, 0), (0, 0, 1)).
Definition g_rotated : Globals :=
  {| trans_stat := trans_stat g; rot_stat := [identity; identity; identity];
     t_stat := t_stat g;
     trans_orig := trans_orig g; rot_orig := [identity];
     t_orig := t_orig g;
     trans_move := trans_move g; rot_move := [identity; identity];
     t_move := t_move g |}.
Definition w_rotated : World :=
  {| w_files := [("hp_move.txt", "Time q1 q2 q3 q4 q5 q6 g-value error velocity")];
     w_globals := g_rotated;
     w_plt := {| Mpl.p_figs := [Mpl.new_figure]; Mpl.p_current := Some 0%nat |} |}.
End Scenario.

(* ================================================================== *)
(** * The simulated sources, source lines 57-59 *)

(** The two statements that turn the source estimate into a square pulse:
    [stc.data.fill(0)] and
    [stc.data[:, np.where(np.logical_and(stc.times >= pulse_tmin,
                                         stc.times <= pulse_tmax))[0]] = 1e-8]. *)
Module Sim.

(** A two-dimensional float64 array: its rows and the length of its second
    axis, which an array has even when it has no row. *)
Record ndarray2 : Type := mkNdarray2 {
  ncols : nat;
  rows : list (list float)
}.

Definition well_formed (a : ndarray2) : Prop :=
  Forall (fun r => List.length r = ncols a) (rows a).

(** What the two statements read and write of a source estimate: the data,
    one row per vertex and one column per time sample, and the times. *)
Record SourceEstimate : Type := mkSourceEstimate {
  data : ndarray2;
  times : list float
}.

(** Source line 26. *)
Definition pulse_tmin : float := 0%float.
(** Source line 26: the binary64 value of the literal [0.1]. *)
Definition pulse_tmax : float := 0x1.999999999999ap-4%float.
(** Source line 59: the binary64 value of the literal [1e-8]. *)
Definition pulse_value : float := 0x1.5798ee2308c3ap-27%float.

(** [a.fill(v)]. *)
Definition fill (v : float) (a : ndarray2) : ndarray2 :=
  {| ncols := ncols a; rows := map (map (fun _ => v)) (rows a) |}.

(** [a >= x] and [a <= x], element by element; a comparison with NaN is
    false. *)
Definition greater_equal (a : list float) (x : float) : list bool :=
  map (fun t => PrimFloat.leb x t) a.

Definition less_equal (a : list float) (x : float) : list bool :=
  map (fun t => PrimFloat.leb t x) a.

Fixpoint zip_and (a b : list bool) : list bool :=
  match a, b with
  | x :: a', y :: b' => (x && y) :: zip_and a' b'
  | _, _ => []
  end.

(** [np.logical_and(a, b)] on one-dimensional arrays: element by element for
    equal lengths, an array of length 1 is broadcast, other shapes raise. *)
Definition logical_and (a b : list bool) : Py.exc + list bool :=
  if List.length a =? List.length b then inr (zip_and a b)
  else match a, b with
       | [x], _ => inr (map (andb x) b)
       | _, [y] => inr (map (fun x => x && y) a)
       | _, _ => inl (Py.ValueError "operands could not be broadcast together")
       end.

(** The indices of the true elements of [mask], counted from [k]. *)
Fixpoint nonzero_from (k : nat) (mask : list bool) : list nat :=
  match mask with
  | [] => []
  | b :: mask' =>
      if b then k :: nonzero_from (S k) mask' else nonzero_from (S k) mask'
  end.

(** [np.where(mask)]: a tuple with one index array per axis. *)
Definition where_ (mask : list bool) : list (list nat) :=
  [nonzero_from 0 mask].

(** One row of [a[:, idx] = v]. *)
Definition set_row (idx : list nat) (v : float) (r : list float) : list float :=
  fold_left (fun r' i => Py.set_nth i v r') idx r.

(** [a[:, idx] = v]: every index has to be a column of the array. *)
Definition set_columns (idx : list nat) (v : float) (a : ndarray2)
  : Py.exc + ndarray2 :=
  if forallb (fun i => i <? ncols a) idx then
    inr {| ncols := ncols a; rows := map (set_row idx v) (rows a) |}
  else inl (Py.IndexError "index is out of bounds for axis 1").

(** Source lines 57-59 on the source estimate they mutate; the estimate
    reached is kept when a statement raises. *)
Definition square_pulse (stc : SourceEstimate)
  : (Py.exc + unit) * SourceEstimate :=
  let stc := {| data := fill 0%float (data stc); times := times stc |} in
  match logical_and (greater_equal (times stc) pulse_tmin)
                    (less_equal (times stc) pulse_tmax) with
  | inl e => (inl e, stc)
  | inr mask =>
      match Py.getitem (where_ mask) 0 with
      | inl e => (inl e, stc)
      | inr idx =>
          match set_columns idx pulse_value (data stc) with
          | inl e => (inl e, stc)
          | inr d => (inr tt, {| data := d; times := times stc |})
          end
      end
  end.

(** A timestamp of the pulse window. *)
Definition in_pulse (t : float) : bool :=
  PrimFloat.leb pulse_tmin t && PrimFloat.leb t pulse_tmax.

(** Two vertices and five time samples, all ones as [np.ones] leaves them;
    the samples at 0, 0.0625 and [pulse_tmax] are in the window. *)
Definition example_stc : SourceEstimate :=
  {| data := {| ncols := 5;
                rows := [[1; 1; 1; 1; 1]; [1; 1; 1; 1; 1]]%float |};
     times := [-0.0625; 0; 0.0625; pulse_tmax; 0.125]%float |}.

End Sim.

(** The scenario with one timestamp missing from the original log: five
    positions, four timestamps. *)
Module Mismatch.
Open Scope float_scope.
Definition g : Globals :=
  {| trans_stat := trans_stat Scenario.g; rot_stat := []; t_stat := t_stat Scenario.g;
     trans_orig := trans_orig Scenario.g; rot_orig := []; t_orig := [0; 0.5; 1; 1.5];
     trans_move := trans_move Scenario.g; rot_move := []; t_move := t_move Scenario.g |}.
Definition w : World :=
  {| w_files := []; w_globals := g;
     w_plt := {| Mpl.p_figs := []; Mpl.p_current := None |} |}.
End Mismatch.

(* ================================================================== *)
(** * What the script draws *)

(** The state in which [fig] is the newest figure and the current one, after
    the figures [old]. *)
Definition focus (fs : list (string * string)) (g : Globals)
           (old : list Mpl.Figure) (fig : Mpl.Figure) : World :=
  {| w_files := fs; w_globals := g;
     w_plt := {| Mpl.p_figs := old ++ [fig];
                 Mpl.p_current := Some (List.length old) |} |}.

(** Each timestamp array is as long as its translation array, as the three
    arrays returned by one [get_chpi_positions] call are. *)
Definition well_shaped (g : Globals) : Prop :=
  List.length (t_stat g) = List.length (trans_stat g) /\
  List.length (t_orig g) = List.length (trans_orig g) /\
  List.length (t_move g) = List.length (trans_move g).

(** The figure a run of the script added to the pyplot state of [w]. *)
Definition created_figure (cls : Mpl.AxesClass) (w : World) : option Mpl.Figure :=
  nth_error (Mpl.p_figs (w_plt (snd (plot_simulation cls w))))
            (List.length (Mpl.p_figs (w_plt w))).

(** ** The closed form of the drawing *)

(** One element of the [zip] of the script: timestamps, translations, marker
    size, colour and label of a condition. *)
Definition condition : Type :=
  (list float * list Np.vec3 * Z * string * string)%type.

Definition cond_t (c : condition) : list float := let '(t, _, _, _, _) := c in t.
Definition cond_trans (c : condition) : list Np.vec3 := let '(_, d, _, _, _) := c in d.
Definition cond_size (c : condition) : Z := let '(_, _, s, _, _) := c in s.
Definition cond_color (c : condition) : string := let '(_, _, _, k, _) := c in k.
Definition cond_label (c : condition) : string := let '(_, _, _, _, l) := c in l.

Definition stationary (g : Globals) : condition :=
  (t_stat g, trans_stat g, 5%Z, "y", "stationary").
Definition original (g : Globals) : condition :=
  (t_orig g, trans_orig g, 10%Z, "k", "original").
Definition simulated (g : Globals) : condition :=
  (t_move g, trans_move g, 5%Z, "r", "simulated").

Definition conditions (g : Globals) : list condition :=
  [stationary g; original g; simulated g].

Definition shape_ok (c : condition) : bool :=
  List.length (cond_t c) =? List.length (cond_trans c).

(** The line that [ax.step] makes of condition [c] on subplot row [ai]. *)
Definition plotted (ai : nat) (c : condition) : Mpl.Line2D :=
  {| Mpl.l_xdata := cond_t c;
     Mpl.l_ydata := Np.scalar_mul 1000%float (map (Np.component ai) (cond_trans c));
     Mpl.l_color := cond_color c;
     Mpl.l_marker := "o";
     Mpl.l_markersize := cond_size c;
     Mpl.l_where := "post";
     Mpl.l_label := cond_label c |}.

(** The lines the inner loop has drawn when it ends: one per condition, up to
    the first condition whose shapes disagree. *)
Fixpoint drawn (ai : nat) (conds : list condition) : list Mpl.Line2D :=
  match conds with
  | [] => []
  | c :: cs => if shape_ok c then plotted ai c :: drawn ai cs else []
  end.

(** The axes of row [ai] when the inner loop failed. *)
Definition started_row (conds : list condition) (ai : nat) : Mpl.Axes :=
  {| Mpl.a_geometry := (3, 1, ai + 1);
     Mpl.a_lines := drawn ai conds;
     Mpl.a_ylabel := ""; Mpl.a_xlabel := "";
     Mpl.a_legend := None; Mpl.a_axes := None |}.

(** The axes of row [ai] once its lines and its vertical label are in
    place: at the [legend] call of the second row and at the [set_axes] call
    of the first, and after [set_axes] with [tight := Some "tight"].  No run
    gets as far as a legend or a horizontal label. *)
Definition finished_row (conds : list condition) (tight : option string) (ai : nat)
  : Mpl.Axes :=
  {| Mpl.a_geometry := (3, 1, ai + 1);
     Mpl.a_lines := drawn ai conds;
     Mpl.a_ylabel := nth ai (Py.chars "XYZ") "";
     Mpl.a_xlabel := "";
     Mpl.a_legend := None;
     Mpl.a_axes := tight |}.

(** Outcome and figure of a run on the three conditions of the script, as a
    function of the axes class and of the conditions alone: a shape mismatch
    stops the first row at [step]; otherwise a class without [set_axes]
    stops the first row at line 115, and a class with it stops the second
    row at the [legend] call of line 112. *)
Definition drawing (cls : Mpl.AxesClass) (conds : list condition)
  : (Py.exc + unit) * Mpl.Figure :=
  if forallb shape_ok conds then
    if Mpl.has_set_axes cls then
      (inl (Py.TypeError Mpl.legend_artist_message),
       {| Mpl.f_axes := [finished_row conds (Some "tight") 0;
                         finished_row conds None 1];
          Mpl.f_current := Some 1 |})
    else
      (inl (Py.AttributeError "Axes" "set_axes"),
       {| Mpl.f_axes := [finished_row conds None 0]; Mpl.f_current := Some 0 |})
  else
    (inl (Py.ValueError "x and y must have same first dimension"),
     {| Mpl.f_axes := [started_row conds 0]; Mpl.f_current := Some 0 |}).

(** Two sets of variables with the same timestamps and translations; the
    rotations are free. *)
Definition same_positions (g1 g2 : Globals) : Prop :=
  t_stat g1 = t_stat g2 /\ trans_stat g1 = trans_stat g2 /\
  t_orig g1 = t_orig g2 /\ trans_orig g1 = trans_orig g2 /\
  t_move g1 = t_move g2 /\ trans_move g1 = trans_move g2.

(** A statement that leaves the files and the script's variables alone. *)
Definition keeps_frame {A : Type} (m : M A) : Prop :=
  forall w, w_files (snd (m w)) = w_files w /\ w_globals (snd (m w)) = w_globals w.

(** The X row of the scenario, in millimetres. *)
Module ScenarioX.
Open Scope float_scope.
Definition stationary_line : Mpl.Line2D :=
  Mpl.mkLine2D [0; 1; 2] [0; 0; 0] "y" "o" 5 "post" "stationary".
Definition original_line : Mpl.Line2D :=
  Mpl.mkLine2D [0; 0.5; 1; 1.5; 2] [0; 1; 0; 1; 0] "k" "o" 10 "post" "original".
Definition simulated_line : Mpl.Line2D :=
  Mpl.mkLine2D [0; 1; 2] [0; 2; 2] "r" "o" 5 "post" "simulated".
Definition row : Mpl.Axes :=
  Mpl.mkAxes (3, 1, 1)%nat [stationary_line; original_line; simulated_line]
             "X" "" None None.
Definition figure : Mpl.Figure := Mpl.mkFigure [row] (Some 0%nat).
End ScenarioX.

(* ================================================================== *)
(** * Running statements on a focused figure *)

Lemma nth_error_snoc {A : Type} (l : list A) (x : A) :
  nth_error (l ++ [x]) (List.length l) = Some x.
Proof.
  induction l as [|y l IH]; simpl; [reflexivity | exact IH].
Qed.

Lemma set_nth_snoc {A : Type} (l : list A) (x y : A) :
  Py.set_nth (List.length l) y (l ++ [x]) = l ++ [y].
Proof.
  induction l as [|z l IH]; simpl; [reflexivity | now rewrite IH].
Qed.

Lemma on_figure_focus {A : Type} fs g old fig
      (m : Mpl.Figure -> (Py.exc + A) * Mpl.Figure) :
  Plt.on_figure (List.length old) m (focus fs g old fig) =
  let '(r, fig') := m fig in (r, focus fs g old fig').
Proof.
  unfold Plt.on_figure, focus; simpl.
  rewrite nth_error_snoc.
  destruct (m fig) as [r fig']; unfold Plt.set_plt; simpl.
  now rewrite set_nth_snoc.
Qed.

(** ** Equations for running the head statement of a program *)

Lemma bind_bind_run {A B C : Type} (m : M A) (k1 : A -> M B) (k2 : B -> M C) (w : World) :
  bind (bind m k1) k2 w = bind m (fun a => bind (k1 a) k2) w.
Proof.
  unfold bind. destruct (m w) as [[e|a] w']; reflexivity.
Qed.

Lemma bind_ret_run {A B : Type} (a : A) (k : A -> M B) (w : World) :
  bind (ret a) k w = k a w.
Proof. reflexivity. Qed.

Lemma bind_lift_run {A B : Type} (r : Py.exc + A) (k : A -> M B) (w : World) :
  bind (lift r) k w = match r with inr a => k a w | inl e => (inl e, w) end.
Proof. reflexivity. Qed.

Lemma ret_run {A : Type} (a : A) (w : World) : ret a w = (inr a, w).
Proof. reflexivity. Qed.

Lemma for_in_nil {X Acc : Type} (acc : Acc) (body : Acc -> X -> M Acc) :
  for_in [] acc body = ret acc.
Proof. reflexivity. Qed.

Lemma for_in_cons {X Acc : Type} (x : X) (l : list X) (acc : Acc)
      (body : Acc -> X -> M Acc) :
  for_in (x :: l) acc body = bind (body acc x) (fun acc' => for_in l acc' body).
Proof. reflexivity. Qed.

Lemma bind_figure_run {B : Type} (k : nat -> M B) (w : World) :
  bind Plt.figure k w =
  k (List.length (Mpl.p_figs (w_plt w)))
    (focus (w_files w) (w_globals w) (Mpl.p_figs (w_plt w)) Mpl.new_figure).
Proof. reflexivity. Qed.

Lemma bind_gcf_run {B : Type} (k : nat -> M B) fs g old fig :
  bind Plt.gcf k (focus fs g old fig) = k (List.length old) (focus fs g old fig).
Proof. reflexivity. Qed.

Lemma bind_globals_run {B : Type} (k : Globals -> M B) fs g old fig :
  bind globals k (focus fs g old fig) = k g (focus fs g old fig).
Proof. reflexivity. Qed.

Lemma bind_on_figure_run {A B : Type} fs g old fig
      (m : Mpl.Figure -> (Py.exc + A) * Mpl.Figure) (k : A -> M B) :
  bind (Plt.on_figure (List.length old) m) k (focus fs g old fig) =
  match m fig with
  | (inr a, fig') => k a (focus fs g old fig')
  | (inl e, fig') => (inl e, focus fs g old fig')
  end.
Proof.
  unfold bind. rewrite on_figure_focus.
  destruct (m fig) as [[e|a] fig']; reflexivity.
Qed.

Lemma on_figure_run {A : Type} fs g old fig
      (m : Mpl.Figure -> (Py.exc + A) * Mpl.Figure) :
  Plt.on_figure (List.length old) m (focus fs g old fig) =
  (fst (m fig), focus fs g old (snd (m fig))).
Proof.
  rewrite on_figure_focus. destruct (m fig); reflexivity.
Qed.

Lemma length_scaled_column (k : float) (ai : nat) (data : list Np.vec3) :
  List.length (Np.scalar_mul k (map (Np.component ai) data)) = List.length data.
Proof. unfold Np.scalar_mul. now rewrite !length_map. Qed.

Arguments bind : simpl never.
Arguments ret : simpl never.
Arguments lift : simpl never.
Arguments for_in : simpl never.
Arguments Plt.on_figure : simpl never.
Arguments Plt.gcf : simpl never.
Arguments Plt.figure : simpl never.
Arguments globals : simpl never.
Arguments focus : simpl never.
Arguments Np.scalar_mul : simpl never.
Arguments Np.component : simpl never.

Lemma Axes_step_run (x y : list float) (color marker : string) (markersize : Z)
      (where_ label : string) (ax : Mpl.Axes) :
  Mpl.Axes_step x y color marker markersize where_ label ax =
  if List.length x =? List.length y then
    (inr [Mpl.mkLine2D x y color marker markersize where_ label],
     Mpl.mkAxes (Mpl.a_geometry ax)
                (Mpl.a_lines ax ++ [Mpl.mkLine2D x y color marker markersize where_ label])
                (Mpl.a_ylabel ax) (Mpl.a_xlabel ax) (Mpl.a_legend ax) (Mpl.a_axes ax))
  else (inl (Py.ValueError "x and y must have same first dimension"), ax).
Proof. reflexivity. Qed.

(** One step of symbolic execution: the head statement is run, the rest of
    the program stays folded. *)
Ltac exec_step :=
  lazymatch goal with
  | |- bind (bind _ _) _ _ = _ => rewrite bind_bind_run
  | |- bind (ret _) _ _ = _ => rewrite bind_ret_run
  | |- bind (lift _) _ _ = _ => rewrite bind_lift_run; cbn
  | |- bind (for_in (_ :: _) _ _) _ _ = _ => rewrite for_in_cons
  | |- bind (for_in [] _ _) _ _ = _ => rewrite for_in_nil
  | |- bind Plt.figure _ _ = _ => rewrite bind_figure_run
  | |- bind Plt.gcf _ _ = _ => rewrite bind_gcf_run
  | |- bind globals _ _ = _ => rewrite bind_globals_run
  | |- bind (Plt.on_figure _ _) _ _ = _ =>
      rewrite bind_on_figure_run; cbn
  | |- for_in (_ :: _) _ _ _ = _ => rewrite for_in_cons
  | |- for_in [] _ _ _ = _ => rewrite for_in_nil
  | |- Plt.on_figure _ _ _ = _ =>
      rewrite on_figure_run; cbn
  | |- ret _ _ = _ => rewrite ret_run
  | |- _ =>
      first [ rewrite Axes_step_run, length_scaled_column;
              match goal with H : (_ =? _) = _ |- _ => rewrite H end; cbn
            | progress cbn ]
  end.

Ltac exec := repeat exec_step.

(* ================================================================== *)
(** * The script computes its closed form *)

Ltac split_shapes g :=
  destruct (List.length (t_stat g) =? List.length (trans_stat g)) eqn:?Hstat;
  destruct (List.length (t_orig g) =? List.length (trans_orig g)) eqn:?Horig;
  destruct (List.length (t_move g) =? List.length (trans_move g)) eqn:?Hmove.

Ltac unfold_script :=
  unfold plot_simulation, Plt.subplot, Plt.call, Plt.legend.

Ltac unfold_drawing :=
  unfold drawing, finished_row, started_row, conditions, stationary, original,
    simulated, plotted, shape_ok;
  cbn;
  repeat match goal with H : (_ =? _) = _ |- _ => rewrite H; cbn end.

(** The script computes its closed form.  Earlier figures, the files and the
    rotations play no part; the new figure comes after the figures that were
    there and is the current one. *)
Lemma run_drawing (cls : Mpl.AxesClass) (w : World) :
  plot_simulation cls w =
  (fst (drawing cls (conditions (w_globals w))),
   focus (w_files w) (w_globals w) (Mpl.p_figs (w_plt w))
         (snd (drawing cls (conditions (w_globals w))))).
Proof.
  destruct cls as [[|]]; split_shapes (w_globals w);
    unfold_script; exec; unfold_drawing; reflexivity.
Qed.

(* ================================================================== *)
(** * Consequences of the closed form *)

Arguments conditions : simpl never.

Lemma run_outcome (cls : Mpl.AxesClass) (w : World) :
  fst (plot_simulation cls w) = fst (drawing cls (conditions (w_globals w))).
Proof. now rewrite run_drawing. Qed.

Lemma run_state (cls : Mpl.AxesClass) (w : World) :
  snd (plot_simulation cls w) =
  focus (w_files w) (w_globals w) (Mpl.p_figs (w_plt w))
        (snd (drawing cls (conditions (w_globals w)))).
Proof. now rewrite run_drawing. Qed.

Lemma created_figure_drawing (cls : Mpl.AxesClass) (w : World) :
  created_figure cls w = Some (snd (drawing cls (conditions (w_globals w)))).
Proof.
  unfold created_figure. rewrite run_state. unfold focus; simpl.
  apply nth_error_snoc.
Qed.

(** Every drawn line is the line of the condition at the same place, and
    that condition passed the shape check. *)
Lemma drawn_nth (ai : nat) (conds : list condition) :
  forall c line,
    nth_error (drawn ai conds) c = Some line ->
    exists cond,
      nth_error conds c = Some cond /\ shape_ok cond = true /\ line = plotted ai cond.
Proof.
  induction conds as [|c0 cs IH]; intros c line H.
  - destruct c; discriminate.
  - simpl in H. destruct (shape_ok c0) eqn:Hc0.
    + destruct c as [|c]; simpl in H |- *.
      * injection H as <-. exists c0. auto.
      * apply IH, H.
    + destruct c; discriminate.
Qed.

Lemma drawn_prefix (ai : nat) (conds : list condition) :
  exists n, drawn ai conds = firstn n (map (plotted ai) conds).
Proof.
  induction conds as [|c0 cs [n IH]].
  - exists 0. reflexivity.
  - simpl. destruct (shape_ok c0).
    + exists (S n). simpl. now rewrite IH.
    + exists 0. reflexivity.
Qed.

Lemma drawn_all (ai : nat) (conds : list condition) :
  forallb shape_ok conds = true -> drawn ai conds = map (plotted ai) conds.
Proof.
  induction conds as [|c0 cs IH]; simpl; intros H.
  - reflexivity.
  - apply andb_true_iff in H as [H0 H]. rewrite H0. now rewrite IH.
Qed.

Lemma well_shaped_all (g : Globals) :
  well_shaped g <-> forallb shape_ok (conditions g) = true.
Proof.
  unfold well_shaped, conditions, shape_ok, stationary, original, simulated; simpl.
  rewrite !andb_true_iff, !Nat.eqb_eq. tauto.
Qed.

(** The axes of a figure of the closed form: row [i] has the geometry of
    cell [i + 1] of the 3 x 1 grid and the lines drawn for axis [i]. *)
Lemma drawing_rows (cls : Mpl.AxesClass) (conds : list condition) (i : nat) (ax : Mpl.Axes) :
  nth_error (Mpl.f_axes (snd (drawing cls conds))) i = Some ax ->
  i < 3 /\ Mpl.a_geometry ax = (3, 1, i + 1) /\ Mpl.a_lines ax = drawn i conds.
Proof.
  unfold drawing.
  destruct (forallb shape_ok conds), (Mpl.has_set_axes cls); simpl;
    destruct i as [|[|[|i]]]; simpl; intros H;
    try discriminate; try (destruct i; discriminate);
    injection H as <-; repeat split; lia.
Qed.

Lemma column_in_range (data : list Np.vec3) (i : nat) :
  i < 3 -> Np.column data i = inr (map (Np.component i) data).
Proof.
  intros Hi. unfold Np.column.
  apply Nat.ltb_lt in Hi. now rewrite Hi.
Qed.

(** No run returns: a shape mismatch stops [step], a class without
    [set_axes] stops the first row at that call, and a class with it stops
    the second row at the [legend] call. *)
Lemma run_raises (cls : Mpl.AxesClass) (w : World) :
  fst (plot_simulation cls w) <> inr tt.
Proof.
  rewrite run_outcome. unfold drawing.
  destruct (forallb shape_ok _), (Mpl.has_set_axes cls); discriminate.
Qed.

(** When the shapes agree the first subplot is there with its three lines,
    whatever the axes class. *)
Lemma first_row_drawn (cls : Mpl.AxesClass) (w : World) :
  well_shaped (w_globals w) ->
  exists fig ax,
    created_figure cls w = Some fig /\
    nth_error (Mpl.f_axes fig) 0 = Some ax /\
    Mpl.a_lines ax = map (plotted 0) (conditions (w_globals w)).
Proof.
  intros Hws. apply well_shaped_all in Hws.
  exists (snd (drawing cls (conditions (w_globals w)))).
  rewrite created_figure_drawing. unfold drawing. rewrite Hws.
  destruct (Mpl.has_set_axes cls); cbn [snd Mpl.f_axes nth_error];
    eexists; (split; [reflexivity|]); (split; [reflexivity|]);
    unfold finished_row; cbn [Mpl.a_lines]; apply (drawn_all _ _ Hws).
Qed.

(* ================================================================== *)
(** * The properties of the specification *)

(** The scenario, run as it is: on the X row the stationary line is flat at
    0 mm, the original line is at 1 mm on the odd samples and the simulated
    line at 2 mm from t = 1; with the spec's axes class the run then stops at
    the [set_axes] call. *)
Example scenario_run :
  plot_simulation Mpl.spec_axes_class Scenario.w =
  (inl (Py.AttributeError "Axes" "set_axes"),
   focus [] Scenario.g [] ScenarioX.figure).
Proof. vm_compute. reflexivity. Qed.

(** C1.  Scale-factor invariant: on the subplot of row [i], the line at the
    place of a condition carries exactly 1000 times column [i] of that
    condition's translations, [1000 * data[:, i]], and nothing else is done
    to the values.  This holds for every line of the figure a run leaves,
    whatever the axes class and the inputs.  A run that returned would have
    such a line for each of the three rows and each of the three conditions
    (none does, the loop stops before: see [run_raises]); and whenever each
    timestamp array is as long as its translation array, the first subplot
    has such a line for each of the three conditions. *)
Theorem scale_factor_invariant (cls : Mpl.AxesClass) (w : World) :
  (forall fig i ax c line,
      created_figure cls w = Some fig ->
      nth_error (Mpl.f_axes fig) i = Some ax ->
      nth_error (Mpl.a_lines ax) c = Some line ->
      exists cond col,
        nth_error (conditions (w_globals w)) c = Some cond /\
        Np.column (cond_trans cond) i = inr col /\
        Mpl.l_ydata line = Np.scalar_mul 1000%float col) /\
  (fst (plot_simulation cls w) = inr tt ->
   forall i c cond,
     i < 3 ->
     nth_error (conditions (w_globals w)) c = Some cond ->
     exists fig ax line,
       created_figure cls w = Some fig /\
       nth_error (Mpl.f_axes fig) i = Some ax /\
       nth_error (Mpl.a_lines ax) c = Some line) /\
  (well_shaped (w_globals w) ->
   forall c cond,
     nth_error (conditions (w_globals w)) c = Some cond ->
     exists fig ax line,
       created_figure cls w = Some fig /\
       nth_error (Mpl.f_axes fig) 0 = Some ax /\
       nth_error (Mpl.a_lines ax) c = Some line).
Proof.
  split; [|split].
  - intros fig i ax c line Hfig Hax Hline.
    rewrite created_figure_drawing in Hfig. injection Hfig as <-.
    apply drawing_rows in Hax as (Hi & _ & Hlines).
    rewrite Hlines in Hline.
    apply drawn_nth in Hline as (cond & Hcond & _ & ->).
    exists cond, (map (Np.component i) (cond_trans cond)).
    split; [exact Hcond|]. split; [now apply column_in_range | reflexivity].
  - intros Hret. exfalso. exact (run_raises cls w Hret).
  - intros Hws c cond Hcond.
    destruct (first_row_drawn cls w Hws) as (fig & ax & Hfig & Hax & Hlines).
    exists fig, ax, (plotted 0 cond).
    split; [exact Hfig|]. split; [exact Hax|].
    rewrite Hlines. now apply map_nth_error.
Qed.

(** The scenario of the specification, original trajectory on the X row:
    0, 1 mm, 0, 1 mm, 0; and the simulated trajectory has its line on the
    first subplot. *)
Lemma scale_factor_invariant_witness :
  (exists cond col,
      nth_error (conditions Scenario.g) 1 = Some cond /\
      Np.column (cond_trans cond) 0 = inr col /\
      Mpl.l_ydata ScenarioX.original_line = Np.scalar_mul 1000%float col) /\
  (exists fig ax line,
      created_figure Mpl.setter_axes_class Scenario.w = Some fig /\
      nth_error (Mpl.f_axes fig) 0 = Some ax /\
      nth_error (Mpl.a_lines ax) 2 = Some line).
Proof.
  split.
  - refine (proj1 (scale_factor_invariant Mpl.spec_axes_class Scenario.w)
                  ScenarioX.figure 0 ScenarioX.row 1 ScenarioX.original_line _ _ _).
    + vm_compute. reflexivity.
    + reflexivity.
    + reflexivity.
  - refine (proj2 (proj2 (scale_factor_invariant Mpl.setter_axes_class Scenario.w))
                  _ 2 (simulated Scenario.g) _).
    + repeat split.
    + reflexivity.
Defined.


(** With a class that has the method, such a run stops at the [legend] call
    of the second row. *)
Lemma drawing_setter_class (cls : Mpl.AxesClass) (conds : list condition) :
  Mpl.has_set_axes cls = true ->
  forallb shape_ok conds = true ->
  drawing cls conds =
  (inl (Py.TypeError Mpl.legend_artist_message),
   {| Mpl.f_axes := [finished_row conds (Some "tight") 0; finished_row conds None 1];
      Mpl.f_current := Some 1 |}).
Proof. unfold drawing. now intros -> ->. Qed.

(** With the spec's axes class the figure never gets past its first axes. *)
Lemma drawing_spec_class_axes (conds : list condition) :
  exists e ax,
    drawing Mpl.spec_axes_class conds =
    (inl e, {| Mpl.f_axes := [ax]; Mpl.f_current := Some 0 |}) /\
    Mpl.a_geometry ax = (3, 1, 1) /\ Mpl.a_xlabel ax = "" /\
    Mpl.a_legend ax = None /\ Mpl.a_axes ax = None.
Proof.
  unfold drawing. destruct (forallb shape_ok conds); simpl.
  - exists (Py.AttributeError "Axes" "set_axes"), (finished_row conds None 0). auto.
  - exists (Py.ValueError "x and y must have same first dimension"),
           (started_row conds 0). auto.
Qed.




(** C3, on the code.  With the spec's axes class the figure a run leaves has
    one subplot, cell 1 of the 3 x 1 grid, whatever the inputs: the second
    and third iterations are never entered. *)
Theorem one_subplot_with_spec_class (w : World) :
  exists fig,
    created_figure Mpl.spec_axes_class w = Some fig /\
    map Mpl.a_geometry (Mpl.f_axes fig) = [(3, 1, 1)].
Proof.
  destruct (drawing_spec_class_axes (conditions (w_globals w)))
    as (e & ax & Hd & Hg & _).
  exists {| Mpl.f_axes := [ax]; Mpl.f_current := Some 0 |}.
  rewrite created_figure_drawing, Hd. simpl. now rewrite Hg.
Qed.

(** The post-step path holds the value of sample [k] up to the timestamp of
    sample [k + 1]. *)
Lemma poststep_holds (k : nat) :
  forall xs ys x y x',
    nth_error xs k = Some x ->
    nth_error ys k = Some y ->
    nth_error xs (S k) = Some x' ->
    nth_error (Mpl.poststep xs ys) (2 * k) = Some (x, y) /\
    nth_error (Mpl.poststep xs ys) (2 * k + 1) = Some (x', y).
Proof.
  induction k as [|k IH]; intros xs ys x y x' Hx Hy Hx'.
  - destruct xs as [|x0 [|x1 xs]]; simpl in Hx, Hx'; try discriminate.
    destruct ys as [|y0 ys]; simpl in Hy; try discriminate.
    injection Hx as <-. injection Hy as <-. injection Hx' as <-.
    split; reflexivity.
  - destruct xs as [|x0 [|x1 xs]]; simpl in Hx, Hx'; try discriminate.
    destruct ys as [|y0 ys]; simpl in Hy; try discriminate.
    replace (2 * S k) with (S (S (2 * k))) by lia.
    replace (S (S (2 * k)) + 1) with (S (S (2 * k + 1))) by lia.
    change (Mpl.poststep (x0 :: x1 :: xs) (y0 :: ys))
      with ((x0, y0) :: (x1, y0) :: Mpl.poststep (x1 :: xs) ys).
    cbn [nth_error].
    apply (IH (x1 :: xs) ys x y x'); assumption.
Qed.

(** C4.  On every subplot the lines are those of the conditions in the order
    stationary, original, simulated: the lines of an axes are a prefix of
    that sequence, and the whole of it when the inputs pass the shape checks
    of [step].  Each line is a step plot of the condition's timestamps with
    [where] = "post", in the condition's colour, with marker "o" at the
    condition's size; on its path the value of a sample is held up to the
    timestamp of the next sample. *)
Theorem conditions_drawn_in_order (cls : Mpl.AxesClass) (w : World) :
  forall fig i ax,
    created_figure cls w = Some fig ->
    nth_error (Mpl.f_axes fig) i = Some ax ->
    (exists n,
        Mpl.a_lines ax =
        firstn n (map (plotted i) [stationary (w_globals w); original (w_globals w);
                                   simulated (w_globals w)])) /\
    (well_shaped (w_globals w) ->
     map Mpl.l_label (Mpl.a_lines ax) = ["stationary"; "original"; "simulated"] /\
     map Mpl.l_xdata (Mpl.a_lines ax) =
       [t_stat (w_globals w); t_orig (w_globals w); t_move (w_globals w)] /\
     map Mpl.l_color (Mpl.a_lines ax) = ["y"; "k"; "r"] /\
     map Mpl.l_markersize (Mpl.a_lines ax) = [5%Z; 10%Z; 5%Z]) /\
    (forall line,
        In line (Mpl.a_lines ax) ->
        Mpl.l_marker line = "o" /\ Mpl.l_where line = "post" /\
        Mpl.step_path line = Some (Mpl.poststep (Mpl.l_xdata line) (Mpl.l_ydata line)) /\
        forall k x y x',
          nth_error (Mpl.l_xdata line) k = Some x ->
          nth_error (Mpl.l_ydata line) k = Some y ->
          nth_error (Mpl.l_xdata line) (S k) = Some x' ->
          nth_error (Mpl.poststep (Mpl.l_xdata line) (Mpl.l_ydata line)) (2 * k)
            = Some (x, y) /\
          nth_error (Mpl.poststep (Mpl.l_xdata line) (Mpl.l_ydata line)) (2 * k + 1)
            = Some (x', y)).
Proof.
  intros fig i ax Hfig Hax.
  rewrite created_figure_drawing in Hfig. injection Hfig as <-.
  apply drawing_rows in Hax as (_ & _ & Hlines). rewrite Hlines.
  split; [exact (drawn_prefix i (conditions (w_globals w)))|]. split.
  - intros Hws. apply well_shaped_all in Hws.
    rewrite (drawn_all _ _ Hws). repeat split.
  - intros line Hin.
    apply In_nth_error in Hin as [c Hc].
    apply drawn_nth in Hc as (cond & _ & _ & ->).
    split; [reflexivity|]. split; [reflexivity|]. split; [reflexivity|].
    intros k x y x'. apply poststep_holds.
Qed.

Lemma conditions_drawn_in_order_witness :
  map Mpl.l_label (Mpl.a_lines ScenarioX.row) = ["stationary"; "original"; "simulated"] /\
  map Mpl.l_xdata (Mpl.a_lines ScenarioX.row) =
    [t_stat Scenario.g; t_orig Scenario.g; t_move Scenario.g] /\
  map Mpl.l_color (Mpl.a_lines ScenarioX.row) = ["y"; "k"; "r"] /\
  map Mpl.l_markersize (Mpl.a_lines ScenarioX.row) = [5%Z; 10%Z; 5%Z].
Proof.
  refine (proj1 (proj2 (conditions_drawn_in_order Mpl.spec_axes_class Scenario.w
                          ScenarioX.figure 0 ScenarioX.row _ _)) _).
  - vm_compute. reflexivity.
  - reflexivity.
  - repeat split.
Defined.

(** C5, on the code.  With the spec's axes class no subplot of the figure a
    run leaves has a legend: the [legend] call of the second iteration is
    never reached. *)
Theorem no_legend_with_spec_class (w : World) :
  exists fig,
    created_figure Mpl.spec_axes_class w = Some fig /\
    map Mpl.a_legend (Mpl.f_axes fig) = [None].
Proof.
  destruct (drawing_spec_class_axes (conditions (w_globals w)))
    as (e & ax & Hd & _ & _ & Hl & _).
  exists {| Mpl.f_axes := [ax]; Mpl.f_current := Some 0 |}.
  rewrite created_figure_drawing, Hd. simpl. now rewrite Hl.
Qed.

(** C6, on the code.  With the spec's axes class no subplot of the figure a
    run leaves has a horizontal label: the [set_xlabel] call of the third
    iteration is never reached. *)
Theorem no_xlabel_with_spec_class (w : World) :
  exists fig,
    created_figure Mpl.spec_axes_class w = Some fig /\
    map Mpl.a_xlabel (Mpl.f_axes fig) = [""].
Proof.
  destruct (drawing_spec_class_axes (conditions (w_globals w)))
    as (e & ax & Hd & _ & Hx & _).
  exists {| Mpl.f_axes := [ax]; Mpl.f_current := Some 0 |}.
  rewrite created_figure_drawing, Hd. simpl. now rewrite Hx.
Qed.

(** C7.  Every line of the figure has as many points as its condition has
    timestamps, in both coordinates.  Each condition is checked against its
    own timestamps only: when each timestamp array is as long as its own
    translation array, whatever the three lengths are, the three lines of
    the first subplot are drawn. *)
Theorem points_match_timestamps (cls : Mpl.AxesClass) (w : World) :
  (forall fig i ax c line cond,
      created_figure cls w = Some fig ->
      nth_error (Mpl.f_axes fig) i = Some ax ->
      nth_error (Mpl.a_lines ax) c = Some line ->
      nth_error (conditions (w_globals w)) c = Some cond ->
      Mpl.l_xdata line = cond_t cond /\
      List.length (Mpl.l_xdata line) = List.length (cond_t cond) /\
      List.length (Mpl.l_ydata line) = List.length (cond_t cond)) /\
  (well_shaped (w_globals w) ->
   exists fig ax,
     created_figure cls w = Some fig /\
     nth_error (Mpl.f_axes fig) 0 = Some ax /\
     List.length (Mpl.a_lines ax) = 3).
Proof.
  split.
  - intros fig i ax c line cond Hfig Hax Hline Hcond.
    rewrite created_figure_drawing in Hfig. injection Hfig as <-.
    apply drawing_rows in Hax as (_ & _ & Hlines). rewrite Hlines in Hline.
    apply drawn_nth in Hline as (cond' & Hcond' & Hshape & ->).
    rewrite Hcond in Hcond'. injection Hcond' as <-.
    unfold shape_ok in Hshape. apply Nat.eqb_eq in Hshape.
    simpl. rewrite length_scaled_column. auto.
  - intros Hws. apply well_shaped_all in Hws.
    exists (snd (drawing cls (conditions (w_globals w)))).
    rewrite created_figure_drawing. unfold drawing. rewrite Hws.
    destruct (Mpl.has_set_axes cls); simpl;
      eexists; (split; [reflexivity|]); (split; [reflexivity|]);
      unfold finished_row; cbn [Mpl.a_lines];
      rewrite (drawn_all _ _ Hws); reflexivity.
Qed.

(** In the scenario the original trajectory has five timestamps and the other
    two have three. *)
Lemma points_match_timestamps_witness :
  (Mpl.l_xdata ScenarioX.original_line = cond_t (original Scenario.g) /\
   List.length (Mpl.l_xdata ScenarioX.original_line) = 5 /\
   List.length (Mpl.l_ydata ScenarioX.original_line) = 5) /\
  exists fig ax,
    created_figure Mpl.spec_axes_class Scenario.w = Some fig /\
    nth_error (Mpl.f_axes fig) 0 = Some ax /\
    List.length (Mpl.a_lines ax) = 3.
Proof.
  split.
  - refine (proj1 (points_match_timestamps Mpl.spec_axes_class Scenario.w)
                  ScenarioX.figure 0 ScenarioX.row 1 ScenarioX.original_line
                  (original Scenario.g) _ _ _ _).
    + vm_compute. reflexivity.
    + reflexivity.
    + reflexivity.
    + reflexivity.
  - apply (proj2 (points_match_timestamps Mpl.spec_axes_class Scenario.w)).
    repeat split.
Defined.

(** C8.  The outcome of a run and the figure it creates are functions of the
    script's variables alone: two runs on the same variables, from any two
    states (in particular the second run of two in a row), raise or return
    alike and create figures with identical contents. *)
Theorem rendering_deterministic (cls : Mpl.AxesClass) (w1 w2 : World) :
  w_globals w1 = w_globals w2 ->
  fst (plot_simulation cls w1) = fst (plot_simulation cls w2) /\
  created_figure cls w1 = created_figure cls w2.
Proof.
  intros Hg. rewrite !run_outcome, !created_figure_drawing, Hg. split; reflexivity.
Qed.

(** The scenario, run twice in a row. *)
Lemma rendering_deterministic_witness :
  fst (plot_simulation Mpl.setter_axes_class Scenario.w) =
  fst (plot_simulation Mpl.setter_axes_class
         (snd (plot_simulation Mpl.setter_axes_class Scenario.w))) /\
  created_figure Mpl.setter_axes_class Scenario.w =
  created_figure Mpl.setter_axes_class
    (snd (plot_simulation Mpl.setter_axes_class Scenario.w)).
Proof.
  apply (rendering_deterministic Mpl.setter_axes_class Scenario.w
           (snd (plot_simulation Mpl.setter_axes_class Scenario.w))).
  vm_compute. reflexivity.
Defined.

(** ** The frame of the script *)

Lemma keeps_ret {A : Type} (a : A) : keeps_frame (ret a).
Proof. intros w. split; reflexivity. Qed.

Lemma keeps_lift {A : Type} (r : Py.exc + A) : keeps_frame (lift r).
Proof. intros w. split; reflexivity. Qed.

Lemma keeps_globals : keeps_frame globals.
Proof. intros w. split; reflexivity. Qed.

Lemma keeps_figure : keeps_frame Plt.figure.
Proof. intros w. split; reflexivity. Qed.

Lemma keeps_gcf : keeps_frame Plt.gcf.
Proof.
  intros w. unfold Plt.gcf.
  destruct (Mpl.p_current (w_plt w)); split; reflexivity.
Qed.

Lemma keeps_on_figure {A : Type} (fi : nat)
      (m : Mpl.Figure -> (Py.exc + A) * Mpl.Figure) :
  keeps_frame (Plt.on_figure fi m).
Proof.
  intros w. unfold Plt.on_figure.
  destruct (nth_error (Mpl.p_figs (w_plt w)) fi) as [fig|]; [|split; reflexivity].
  destruct (m fig) as [r fig']. split; reflexivity.
Qed.

Lemma keeps_bind {A B : Type} (m : M A) (k : A -> M B) :
  keeps_frame m -> (forall a, keeps_frame (k a)) -> keeps_frame (bind m k).
Proof.
  intros Hm Hk w. unfold bind.
  destruct (Hm w) as [Hf Hg].
  destruct (m w) as [[e|a] w']; simpl in Hf, Hg |- *.
  - split; assumption.
  - destruct (Hk a w') as [Hf' Hg']. split; congruence.
Qed.

Lemma keeps_for_in {X Acc : Type} (l : list X) (body : Acc -> X -> M Acc) :
  (forall acc x, keeps_frame (body acc x)) ->
  forall acc, keeps_frame (for_in l acc body).
Proof.
  intros Hbody. induction l as [|x l IH]; intros acc.
  - apply keeps_ret.
  - rewrite for_in_cons. apply keeps_bind; [apply Hbody | exact IH].
Qed.

(** Statement by statement: every statement of the script keeps the frame,
    and sequencing and loops preserve that. *)
Ltac frame :=
  repeat first
    [ apply keeps_ret | apply keeps_lift | apply keeps_globals
    | apply keeps_figure | apply keeps_gcf | apply keeps_on_figure
    | apply keeps_bind | apply keeps_for_in | intro
    | match goal with
      | |- keeps_frame (match ?x with _ => _ end) => destruct x
      end ].

Lemma keeps_plot_simulation (cls : Mpl.AxesClass) : keeps_frame (plot_simulation cls).
Proof.
  unfold plot_simulation, Plt.subplot, Plt.call, Plt.legend. frame.
Qed.

(** C9.  A run changes nothing but the pyplot state, and there it adds one
    figure after the figures that were there: the files on disk are the same
    before and after (nothing is written), and so are the script's variables,
    the three timestamp arrays and the three position matrices among them. *)
Theorem only_effect_is_one_figure (cls : Mpl.AxesClass) (w : World) :
  w_files (snd (plot_simulation cls w)) = w_files w /\
  w_globals (snd (plot_simulation cls w)) = w_globals w /\
  exists fig,
    Mpl.p_figs (w_plt (snd (plot_simulation cls w))) = Mpl.p_figs (w_plt w) ++ [fig].
Proof.
  destruct (keeps_plot_simulation cls w) as [Hf Hg].
  split; [exact Hf|]. split; [exact Hg|].
  rewrite run_state. eexists. reflexivity.
Qed.

Lemma same_positions_conditions (g1 g2 : Globals) :
  same_positions g1 g2 -> conditions g1 = conditions g2.
Proof.
  intros (H1 & H2 & H3 & H4 & H5 & H6).
  unfold conditions, stationary, original, simulated. congruence.
Qed.

(** C10.  The rotations play no part: two runs whose variables agree on the
    three timestamp arrays and the three translation arrays, whatever their
    rotation arrays, raise or return alike and create figures with identical
    contents; from the same pyplot state they reach the same pyplot state. *)
Theorem rotations_do_not_matter (cls : Mpl.AxesClass) (w1 w2 : World) :
  same_positions (w_globals w1) (w_globals w2) ->
  fst (plot_simulation cls w1) = fst (plot_simulation cls w2) /\
  created_figure cls w1 = created_figure cls w2 /\
  (w_plt w1 = w_plt w2 ->
   w_plt (snd (plot_simulation cls w1)) = w_plt (snd (plot_simulation cls w2))).
Proof.
  intros Hsame. apply same_positions_conditions in Hsame.
  rewrite !run_outcome, !created_figure_drawing, !run_state, Hsame.
  repeat split. intros Hplt. unfold focus; simpl. now rewrite Hplt.
Qed.

Lemma rotations_do_not_matter_witness :
  fst (plot_simulation Mpl.spec_axes_class Scenario.w) =
  fst (plot_simulation Mpl.spec_axes_class Scenario.w_rotated) /\
  created_figure Mpl.spec_axes_class Scenario.w =
  created_figure Mpl.spec_axes_class Scenario.w_rotated.
Proof.
  destruct (rotations_do_not_matter Mpl.spec_axes_class Scenario.w Scenario.w_rotated)
    as (Hout & Hfig & _).
  - repeat split.
  - split; [exact Hout | exact Hfig].
Defined.

(* ================================================================== *)
(** * The simulated sources *)

Lemma zip_and_maps {A : Type} (f g : A -> bool) (l : list A) :
  Sim.zip_and (map f l) (map g l) = map (fun x => f x && g x) l.
Proof.
  induction l as [|x l IH]; simpl; [reflexivity | now rewrite IH].
Qed.

(** Both masks come from the one array of times, so nothing is broadcast and
    nothing raises. *)
Lemma pulse_mask (ts : list float) :
  Sim.logical_and (Sim.greater_equal ts Sim.pulse_tmin)
                  (Sim.less_equal ts Sim.pulse_tmax) =
  inr (map Sim.in_pulse ts).
Proof.
  unfold Sim.logical_and, Sim.greater_equal, Sim.less_equal.
  rewrite !length_map, Nat.eqb_refl. now rewrite zip_and_maps.
Qed.

Lemma mem_nonzero_from (mask : list bool) :
  forall s k,
    existsb (Nat.eqb k) (Sim.nonzero_from s mask) =
    (s <=? k) && nth (k - s) mask false.
Proof.
  induction mask as [|b mask IH]; intros s k.
  - simpl. destruct (k - s); now rewrite andb_false_r.
  - assert (Hstep : existsb (Nat.eqb k) (Sim.nonzero_from (S s) mask) =
                    (S s <=? k) && nth (k - S s) mask false) by apply IH.
    destruct (lt_eq_lt_dec k s) as [[Hlt | Heq] | Hgt].
    + assert (Hs : (s <=? k) = false) by (apply Nat.leb_gt; lia).
      assert (HS : (S s <=? k) = false) by (apply Nat.leb_gt; lia).
      assert (He : (k =? s) = false) by (apply Nat.eqb_neq; lia).
      rewrite Hs. rewrite HS in Hstep. simpl in Hstep |- *.
      destruct b; simpl; rewrite ?He, Hstep; reflexivity.
    + subst k.
      assert (HS : (S s <=? s) = false) by (apply Nat.leb_gt; lia).
      rewrite HS in Hstep. simpl in Hstep.
      rewrite Nat.leb_refl, Nat.sub_diag. simpl.
      destruct b; simpl; rewrite ?Nat.eqb_refl, ?Hstep; reflexivity.
    + assert (Hs : (s <=? k) = true) by (apply Nat.leb_le; lia).
      assert (HS : (S s <=? k) = true) by (apply Nat.leb_le; lia).
      assert (He : (k =? s) = false) by (apply Nat.eqb_neq; lia).
      rewrite Hs. rewrite HS in Hstep. simpl in Hstep.
      replace (k - s) with (S (k - S s)) by lia. simpl.
      destruct b; simpl; rewrite ?He, Hstep; reflexivity.
Qed.

Lemma nonzero_from_bound (mask : list bool) :
  forall s i, In i (Sim.nonzero_from s mask) -> i < s + List.length mask.
Proof.
  induction mask as [|b mask IH]; intros s i Hin; simpl in Hin.
  - contradiction.
  - simpl. destruct b; simpl in Hin.
    + destruct Hin as [<- | Hin]; [lia | apply IH in Hin; lia].
    + apply IH in Hin. lia.
Qed.

Lemma length_set_nth {A : Type} (v : A) (r : list A) :
  forall i, List.length (Py.set_nth i v r) = List.length r.
Proof.
  induction r as [|x r IH]; intros i; destruct i; simpl;
    try reflexivity.
  now rewrite IH.
Qed.

Lemma nth_error_set_nth {A : Type} (v : A) (r : list A) :
  forall i j,
    nth_error (Py.set_nth i v r) j =
    if j =? i then (if j <? List.length r then Some v else None)
    else nth_error r j.
Proof.
  induction r as [|x r IH]; intros i j;
    destruct i as [|i], j as [|j]; simpl; try reflexivity.
  - destruct (j =? i); reflexivity.
  - rewrite IH. reflexivity.
Qed.

Lemma length_set_row (idx : list nat) (v : float) :
  forall r, List.length (Sim.set_row idx v r) = List.length r.
Proof.
  unfold Sim.set_row.
  induction idx as [|i idx IH]; intros r; simpl.
  - reflexivity.
  - now rewrite IH, length_set_nth.
Qed.

Lemma nth_error_set_row (idx : list nat) (v : float) :
  forall r j,
    nth_error (Sim.set_row idx v r) j =
    if existsb (Nat.eqb j) idx
    then (if j <? List.length r then Some v else None)
    else nth_error r j.
Proof.
  unfold Sim.set_row.
  induction idx as [|i idx IH]; intros r j; simpl.
  - reflexivity.
  - rewrite IH, length_set_nth, nth_error_set_nth.
    destruct (j =? i); simpl.
    + destruct (existsb (Nat.eqb j) idx); reflexivity.
    + reflexivity.
Qed.

Lemma pulse_columns_in_range (ts : list float) (n : nat) :
  List.length ts <= n ->
  forallb (fun i => i <? n) (Sim.nonzero_from 0 (map Sim.in_pulse ts)) = true.
Proof.
  intros Hlen. apply forallb_forall. intros i Hin.
  apply nonzero_from_bound in Hin. rewrite length_map in Hin.
  apply Nat.ltb_lt. lia.
Qed.

(** The two statements, when every time sample has its column. *)
Lemma square_pulse_run (stc : Sim.SourceEstimate) :
  List.length (Sim.times stc) <= Sim.ncols (Sim.data stc) ->
  Sim.square_pulse stc =
  (inr tt,
   {| Sim.data :=
        {| Sim.ncols := Sim.ncols (Sim.data stc);
           Sim.rows :=
             map (Sim.set_row (Sim.nonzero_from 0 (map Sim.in_pulse (Sim.times stc)))
                              Sim.pulse_value)
                 (map (map (fun _ => 0%float)) (Sim.rows (Sim.data stc))) |};
      Sim.times := Sim.times stc |}).
Proof.
  intros Hlen. unfold Sim.square_pulse. cbn [Sim.times Sim.data].
  rewrite pulse_mask. cbn [Sim.where_ Py.getitem nth_error].
  unfold Sim.set_columns. cbn [Sim.fill Sim.ncols Sim.rows].
  now rewrite (pulse_columns_in_range _ _ Hlen).
Qed.

Lemma nth_map_mask {A : Type} (f : A -> bool) (l : list A) :
  forall k,
    nth k (map f l) false =
    match nth_error l k with Some x => f x | None => false end.
Proof.
  induction l as [|x l IH]; intros [|k]; simpl; try reflexivity. apply IH.
Qed.

Lemma map_const_repeat {A B : Type} (v : B) (l : list A) :
  map (fun _ => v) l = repeat v (List.length l).
Proof.
  induction l as [|x l IH]; simpl; [reflexivity | now rewrite IH].
Qed.

Lemma fill_rows_by_shape (v : float) (rows1 rows2 : list (list float)) :
  map (@List.length float) rows1 = map (@List.length float) rows2 ->
  map (map (fun _ => v)) rows1 = map (map (fun _ => v)) rows2.
Proof.
  revert rows2.
  induction rows1 as [|r1 rows1 IH]; intros [|r2 rows2] H; simpl in H;
    try discriminate; [reflexivity|].
  injection H as Hr Hrows. simpl.
  rewrite !map_const_repeat, Hr. now rewrite (IH rows2 Hrows).
Qed.

(** Whatever the outcome, the two statements leave the times and the shape
    of the data as they were. *)
Lemma square_pulse_shape (stc : Sim.SourceEstimate) :
  Sim.times (snd (Sim.square_pulse stc)) = Sim.times stc /\
  Sim.ncols (Sim.data (snd (Sim.square_pulse stc))) = Sim.ncols (Sim.data stc) /\
  map (@List.length float) (Sim.rows (Sim.data (snd (Sim.square_pulse stc)))) =
  map (@List.length float) (Sim.rows (Sim.data stc)).
Proof.
  unfold Sim.square_pulse. cbn [Sim.times Sim.data].
  rewrite pulse_mask. cbn [Sim.where_ Py.getitem nth_error].
  unfold Sim.set_columns. cbn [Sim.fill Sim.ncols Sim.rows].
  destruct (forallb _ _); cbn [snd Sim.times Sim.data Sim.ncols Sim.rows];
    (split; [reflexivity|]); (split; [reflexivity|]);
    unfold Sim.fill; cbn [Sim.rows];
    rewrite !map_map; apply map_ext; intros r;
    rewrite ?length_set_row; apply length_map.
Qed.

(** The outcome depends on the times and on the shape of the data only. *)
Lemma square_pulse_by_shape (stc1 stc2 : Sim.SourceEstimate) :
  Sim.times stc1 = Sim.times stc2 ->
  Sim.ncols (Sim.data stc1) = Sim.ncols (Sim.data stc2) ->
  map (@List.length float) (Sim.rows (Sim.data stc1)) =
  map (@List.length float) (Sim.rows (Sim.data stc2)) ->
  Sim.square_pulse stc1 = Sim.square_pulse stc2.
Proof.
  intros Ht Hc Hr. unfold Sim.square_pulse, Sim.fill. cbn [Sim.times Sim.data].
  now rewrite Ht, Hc, (fill_rows_by_shape _ _ _ Hr).
Qed.

(** X1.  When the data have a column for every time sample, the two
    statements return: nothing is broadcast and no index is out of bounds.
    The times, the number of columns and the length of every row are as
    before, and a rectangular array stays rectangular. *)
Theorem square_pulse_keeps_shape (stc : Sim.SourceEstimate) :
  List.length (Sim.times stc) <= Sim.ncols (Sim.data stc) ->
  fst (Sim.square_pulse stc) = inr tt /\
  Sim.times (snd (Sim.square_pulse stc)) = Sim.times stc /\
  Sim.ncols (Sim.data (snd (Sim.square_pulse stc))) = Sim.ncols (Sim.data stc) /\
  map (@List.length float) (Sim.rows (Sim.data (snd (Sim.square_pulse stc)))) =
  map (@List.length float) (Sim.rows (Sim.data stc)) /\
  (Sim.well_formed (Sim.data stc) ->
   Sim.well_formed (Sim.data (snd (Sim.square_pulse stc)))).
Proof.
  intros Hlen.
  destruct (square_pulse_shape stc) as (Ht & Hc & Hr).
  split; [now rewrite (square_pulse_run stc Hlen)|].
  repeat (split; [assumption|]).
  unfold Sim.well_formed. rewrite Hc. intros Hwf.
  apply Forall_forall. intros r Hin.
  apply (in_map (@List.length float)) in Hin. rewrite Hr in Hin.
  apply in_map_iff in Hin as (r0 & <- & Hin0).
  exact (proj1 (Forall_forall _ _) Hwf r0 Hin0).
Qed.

Lemma square_pulse_keeps_shape_witness :
  fst (Sim.square_pulse Sim.example_stc) = inr tt /\
  Sim.ncols (Sim.data (snd (Sim.square_pulse Sim.example_stc))) = 5 /\
  Sim.well_formed (Sim.data (snd (Sim.square_pulse Sim.example_stc))).
Proof.
  destruct (square_pulse_keeps_shape Sim.example_stc) as (Hok & _ & Hc & _ & Hwf).
  - simpl. lia.
  - split; [exact Hok|]. split; [exact Hc|].
    apply Hwf. repeat constructor.
Defined.

(** X2.  After the two statements the entry of every row at column [k] is
    1e-8 when the time of sample [k] lies in the closed window
    [pulse_tmin, pulse_tmax], and 0 otherwise: outside the window, for a
    NaN time, and in a column that has no time sample. *)
Theorem square_pulse_values (stc : Sim.SourceEstimate) :
  Sim.well_formed (Sim.data stc) ->
  List.length (Sim.times stc) <= Sim.ncols (Sim.data stc) ->
  forall row k,
    In row (Sim.rows (Sim.data (snd (Sim.square_pulse stc)))) ->
    k < Sim.ncols (Sim.data stc) ->
    nth_error row k =
    Some (match nth_error (Sim.times stc) k with
          | Some t =>
              if PrimFloat.leb Sim.pulse_tmin t && PrimFloat.leb t Sim.pulse_tmax
              then Sim.pulse_value else 0%float
          | None => 0%float
          end).
Proof.
  intros Hwf Hlen row k Hin Hk.
  rewrite (square_pulse_run stc Hlen) in Hin. cbn [snd Sim.data Sim.rows] in Hin.
  rewrite map_map in Hin. apply in_map_iff in Hin as (r0 & <- & Hin0).
  assert (Hr0 : List.length r0 = Sim.ncols (Sim.data stc))
    by exact (proj1 (Forall_forall _ _) Hwf r0 Hin0).
  rewrite nth_error_set_row, length_map, Hr0.
  apply Nat.ltb_lt in Hk. rewrite Hk.
  rewrite mem_nonzero_from, Nat.sub_0_r, nth_map_mask. cbn [Nat.leb andb].
  apply Nat.ltb_lt in Hk.
  assert (Hzero : nth_error (map (fun _ : float => 0%float) r0) k = Some 0%float).
  { rewrite nth_error_map.
    destruct (nth_error r0 k) eqn:Hnth; [reflexivity|].
    apply nth_error_None in Hnth. lia. }
  destruct (nth_error (Sim.times stc) k) as [t|]; [|exact Hzero].
  unfold Sim.in_pulse.
  destruct (PrimFloat.leb Sim.pulse_tmin t && PrimFloat.leb t Sim.pulse_tmax);
    [reflexivity | exact Hzero].
Qed.

(** The fourth sample of the example is at [pulse_tmax]: the window is
    closed. *)
Lemma square_pulse_values_witness :
  nth_error [0; Sim.pulse_value; Sim.pulse_value; Sim.pulse_value; 0]%float 3 =
  Some (match nth_error (Sim.times Sim.example_stc) 3 with
        | Some t =>
            if PrimFloat.leb Sim.pulse_tmin t && PrimFloat.leb t Sim.pulse_tmax
            then Sim.pulse_value else 0%float
        | None => 0%float
        end).
Proof.
  apply (square_pulse_values Sim.example_stc).
  - repeat constructor.
  - simpl. lia.
  - vm_compute. left. reflexivity.
  - simpl. lia.
Defined.

(** X3.  After the two statements all rows of a rectangular array are the
    same: every vertex has the same time course. *)
Theorem square_pulse_rows_equal (stc : Sim.SourceEstimate) :
  Sim.well_formed (Sim.data stc) ->
  List.length (Sim.times stc) <= Sim.ncols (Sim.data stc) ->
  forall r1 r2,
    In r1 (Sim.rows (Sim.data (snd (Sim.square_pulse stc)))) ->
    In r2 (Sim.rows (Sim.data (snd (Sim.square_pulse stc)))) ->
    r1 = r2.
Proof.
  intros Hwf Hlen r1 r2 H1 H2.
  rewrite (square_pulse_run stc Hlen) in H1, H2.
  cbn [snd Sim.data Sim.rows] in H1, H2.
  rewrite map_map in H1, H2.
  apply in_map_iff in H1 as (a1 & <- & Ha1).
  apply in_map_iff in H2 as (a2 & <- & Ha2).
  rewrite !map_const_repeat.
  rewrite (proj1 (Forall_forall _ _) Hwf a1 Ha1).
  now rewrite (proj1 (Forall_forall _ _) Hwf a2 Ha2).
Qed.

Lemma square_pulse_rows_equal_witness :
  nth 0 (Sim.rows (Sim.data (snd (Sim.square_pulse Sim.example_stc)))) [] =
  nth 1 (Sim.rows (Sim.data (snd (Sim.square_pulse Sim.example_stc)))) [].
Proof.
  apply (square_pulse_rows_equal Sim.example_stc).
  - repeat constructor.
  - simpl. lia.
  - vm_compute. left. reflexivity.
  - vm_compute. right. left. reflexivity.
Defined.

(** X4.  The values the data held before play no part: two estimates with
    the same times and data of the same shape end alike.  The ones that
    [np.ones] put into the data never reach the simulation. *)
Theorem square_pulse_ignores_values (stc1 stc2 : Sim.SourceEstimate) :
  Sim.times stc1 = Sim.times stc2 ->
  Sim.ncols (Sim.data stc1) = Sim.ncols (Sim.data stc2) ->
  map (@List.length float) (Sim.rows (Sim.data stc1)) =
  map (@List.length float) (Sim.rows (Sim.data stc2)) ->
  Sim.square_pulse stc1 = Sim.square_pulse stc2.
Proof. exact (square_pulse_by_shape stc1 stc2). Qed.

Lemma square_pulse_ignores_values_witness :
  Sim.square_pulse Sim.example_stc =
  Sim.square_pulse
    {| Sim.data := {| Sim.ncols := 5;
                      Sim.rows := [[2; 3; 5; 7; 11]; [nan; 0; -1; 4; 6]]%float |};
       Sim.times := Sim.times Sim.example_stc |}.
Proof.
  apply square_pulse_ignores_values; reflexivity.
Defined.

(** X5.  Running the two statements again changes nothing, whether they
    returned or raised. *)
Theorem square_pulse_idempotent (stc : Sim.SourceEstimate) :
  Sim.square_pulse (snd (Sim.square_pulse stc)) = Sim.square_pulse stc.
Proof.
  destruct (square_pulse_shape stc) as (Ht & Hc & Hr).
  now apply square_pulse_by_shape.
Qed.

(* ================================================================== *)
(** * More on the plotting loop *)

(** X7.  On an axes class that has [set_axes], with shapes that agree, the
    run does not return either: the first iteration goes through, and in
    the second [plt.legend(lines)] raises [TypeError], because the one
    positional argument of [legend] is read as labels and holds the lines.
    The figure is left with two subplots, cells 1 and 2 of the 3 x 1 grid,
    with their lines and the labels X and Y; there is no legend, no
    horizontal label and no third subplot. *)
Theorem legend_call_raises_in_second_iteration (cls : Mpl.AxesClass) (w : World) :
  Mpl.has_set_axes cls = true ->
  well_shaped (w_globals w) ->
  plot_simulation cls w =
  (inl (Py.TypeError Mpl.legend_artist_message),
   focus (w_files w) (w_globals w) (Mpl.p_figs (w_plt w))
         {| Mpl.f_axes :=
              [ {| Mpl.a_geometry := (3, 1, 1);
                   Mpl.a_lines := map (plotted 0) (conditions (w_globals w));
                   Mpl.a_ylabel := "X"; Mpl.a_xlabel := "";
                   Mpl.a_legend := None; Mpl.a_axes := Some "tight" |};
                {| Mpl.a_geometry := (3, 1, 2);
                   Mpl.a_lines := map (plotted 1) (conditions (w_globals w));
                   Mpl.a_ylabel := "Y"; Mpl.a_xlabel := "";
                   Mpl.a_legend := None; Mpl.a_axes := None |} ];
            Mpl.f_current := Some 1 |}).
Proof.
  intros Hcls Hws. apply well_shaped_all in Hws.
  rewrite run_drawing, (drawing_setter_class _ _ Hcls Hws).
  cbn [fst snd]. unfold finished_row.
  rewrite !(drawn_all _ _ Hws). reflexivity.
Qed.

Lemma legend_call_raises_in_second_iteration_witness :
  exists fig,
    plot_simulation Mpl.setter_axes_class Scenario.w =
    (inl (Py.TypeError Mpl.legend_artist_message), focus [] Scenario.g [] fig) /\
    map Mpl.a_ylabel (Mpl.f_axes fig) = ["X"; "Y"] /\
    map Mpl.a_legend (Mpl.f_axes fig) = [None; None].
Proof.
  eexists. split.
  - apply (legend_call_raises_in_second_iteration Mpl.setter_axes_class Scenario.w).
    + reflexivity.
    + repeat split.
  - repeat split.
Defined.

(** The inner loop stops at the first condition whose shapes disagree, with
    the lines of the conditions before it drawn. *)
Lemma drawn_stops (ai : nat) (conds : list condition) :
  forallb shape_ok conds = false ->
  exists n c,
    nth_error conds n = Some c /\ shape_ok c = false /\
    forallb shape_ok (firstn n conds) = true /\
    drawn ai conds = map (plotted ai) (firstn n conds).
Proof.
  induction conds as [|c0 cs IH]; simpl; intros H; [discriminate|].
  destruct (shape_ok c0) eqn:Hc0; simpl in H.
  - destruct (IH H) as (n & c & Hn & Hc & Hbefore & Hdrawn).
    exists (S n), c. simpl. rewrite Hc0, Hdrawn. auto.
  - exists 0, c0. auto.
Qed.

(** X8.  When the timestamps and the translations of some condition differ
    in length, the run raises the [ValueError] of [step] inside the first
    iteration, whatever the axes class: the first subplot holds the lines of
    the conditions before the first such condition and has no label, and no
    other subplot is made. *)
Theorem shape_mismatch_stops_first_iteration (cls : Mpl.AxesClass) (w : World) :
  ~ well_shaped (w_globals w) ->
  exists n c,
    nth_error (conditions (w_globals w)) n = Some c /\
    List.length (cond_t c) <> List.length (cond_trans c) /\
    (forall c', In c' (firstn n (conditions (w_globals w))) ->
                List.length (cond_t c') = List.length (cond_trans c')) /\
    plot_simulation cls w =
    (inl (Py.ValueError "x and y must have same first dimension"),
     focus (w_files w) (w_globals w) (Mpl.p_figs (w_plt w))
           {| Mpl.f_axes :=
                [ {| Mpl.a_geometry := (3, 1, 1);
                     Mpl.a_lines :=
                       map (plotted 0) (firstn n (conditions (w_globals w)));
                     Mpl.a_ylabel := ""; Mpl.a_xlabel := "";
                     Mpl.a_legend := None; Mpl.a_axes := None |} ];
              Mpl.f_current := Some 0 |}).
Proof.
  intros Hbad.
  assert (Hall : forallb shape_ok (conditions (w_globals w)) = false).
  { destruct (forallb shape_ok (conditions (w_globals w))) eqn:Hall; [|reflexivity].
    exfalso. apply Hbad. now apply well_shaped_all. }
  destruct (drawn_stops 0 _ Hall) as (n & c & Hn & Hc & Hbefore & Hdrawn).
  exists n, c. split; [exact Hn|]. split.
  - unfold shape_ok in Hc. now apply Nat.eqb_neq in Hc.
  - split.
    + intros c' Hin.
      apply (proj1 (forallb_forall _ _) Hbefore) in Hin.
      unfold shape_ok in Hin. now apply Nat.eqb_eq in Hin.
    + rewrite run_drawing. unfold drawing. rewrite Hall.
      cbn [fst snd]. unfold started_row. now rewrite Hdrawn.
Qed.

(** Four timestamps for five positions in the original log: the stationary
    line is drawn, then [step] raises. *)
Lemma shape_mismatch_stops_first_iteration_witness :
  exists n c,
    nth_error (conditions Mismatch.g) n = Some c /\
    List.length (cond_t c) <> List.length (cond_trans c) /\
    (forall c', In c' (firstn n (conditions Mismatch.g)) ->
                List.length (cond_t c') = List.length (cond_trans c')) /\
    plot_simulation Mpl.setter_axes_class Mismatch.w =
    (inl (Py.ValueError "x and y must have same first dimension"),
     focus [] Mismatch.g []
           {| Mpl.f_axes :=
                [ {| Mpl.a_geometry := (3, 1, 1);
                     Mpl.a_lines := map (plotted 0) (firstn n (conditions Mismatch.g));
                     Mpl.a_ylabel := ""; Mpl.a_xlabel := "";
                     Mpl.a_legend := None; Mpl.a_axes := None |} ];
              Mpl.f_current := Some 0 |}).
Proof.
  apply (shape_mismatch_stops_first_iteration Mpl.setter_axes_class Mismatch.w).
  intros (_ & H & _). simpl in H. discriminate H.
Defined.

(** X9.  After a run, returning or raising, the figure it created is the
    current figure of pyplot, whatever was current before, and the current
    axes of that figure is the subplot made last. *)
Theorem created_figure_is_current (cls : Mpl.AxesClass) (w : World) :
  exists fig,
    created_figure cls w = Some fig /\
    Mpl.p_current (w_plt (snd (plot_simulation cls w))) =
      Some (List.length (Mpl.p_figs (w_plt w))) /\
    Mpl.f_current fig = Some (List.length (Mpl.f_axes fig) - 1).
Proof.
  exists (snd (drawing cls (conditions (w_globals w)))).
  split; [apply created_figure_drawing|].
  rewrite run_state. split; [reflexivity|].
  unfold drawing.
  destruct (forallb shape_ok _), (Mpl.has_set_axes cls); reflexivity.
Qed.
